(** * openai-server.py: the FastAPI relay from OpenAI streaming events to SSE frames

    A shallow embedding of [src/openai-server.py]: the start-up checks on the
    credential, [mask_api_key], the request models, [chat_endpoint] with its
    inner generator [generate_stream], and [health_check].

    The collaborators imported from [tanstack_ai] and [openai]
    ([format_messages_for_openai], [StreamChunkConverter], [format_sse_chunk],
    [format_sse_done], [client.chat.completions.create]) are not part of this
    file of the repository; they form the interface [Collaborators], with
    the signature the source uses them at, and every theorem about the
    endpoint holds for all its instances. *)

From Stdlib Require Import Ascii String DecimalString.
From Stdlib Require Import Floats.
From Stdlib Require Import List Bool Arith ZArith NArith Lia.
Import ListNotations.

Set Implicit Arguments.
Set Warnings "-register-all".

(** ** Python values *)

Module Py.

(** A Python [str] is a sequence of Unicode code points; [len], slicing and
    [startswith] all count code points. *)
Definition char := N.
Definition str := list char.

(** An ASCII literal of the source, as a [str]. *)
Fixpoint lit (s : string) : str :=
  match s with
  | EmptyString => []
  | String a rest => N_of_ascii a :: lit rest
  end.

Arguments lit s%_string.

(** [a == b] *)
Fixpoint str_eqb (a b : str) : bool :=
  match a, b with
  | [], [] => true
  | x :: a', y :: b' => N.eqb x y && str_eqb a' b'
  | _, _ => false
  end.

(** [s.startswith(prefix)] *)
Fixpoint startswith (s prefix : str) : bool :=
  match prefix, s with
  | [], _ => true
  | _ :: _, [] => false
  | p :: prefix', c :: s' => N.eqb c p && startswith s' prefix'
  end.

(** [c * n] for a one-character string [c] *)
Definition times (c : char) (n : nat) : str := repeat c n.

(** [s[:n]] and [s[-n:]] for a literal [n > 0] *)
Definition slice_to (n : nat) (s : str) : str := firstn n s.
Definition slice_last (n : nat) (s : str) : str := skipn (length s - n) s.

(** [str(n)] for a non-negative [int], as an f-string formats [len(...)]. *)
Definition str_of_nat (n : nat) : str :=
  lit (NilZero.string_of_uint (Nat.to_uint n)).

(** The values a JSON body deserializes to, which is what [Dict[str, Any]]
    holds in this program.  A [dict] keeps its insertion order. *)
Inductive value : Type :=
| PNone
| PBool (b : bool)
| PInt (z : Z)
| PFloat (f : float)
| PStr (s : str)
| PList (l : list value)
| PDict (d : list (str * value)).

Definition dict := list (str * value).

(** [bool(v)] *)
Definition truthy (v : value) : bool :=
  match v with
  | PNone => false
  | PBool b => b
  | PInt z => negb (Z.eqb z 0)
  | PFloat f => negb (PrimFloat.eqb f 0%float)
  | PStr s => match s with [] => false | _ => true end
  | PList l => match l with [] => false | _ => true end
  | PDict d => match d with [] => false | _ => true end
  end.

(** [k in d] and [d.get(k)]; [get] answers [None] for a missing key. *)
Fixpoint lookup (d : dict) (k : str) : option value :=
  match d with
  | [] => None
  | (k', v) :: rest => if str_eqb k' k then Some v else lookup rest k
  end.

Definition get (d : dict) (k : str) : value :=
  match lookup d k with
  | Some v => v
  | None => PNone
  end.

End Py.

Import Py.

(** ** Start-up: the credential checks of lines 41-79 *)

Module Startup.

(** The process environment after [load_dotenv()] has run. *)
Definition environ := list (str * str).

Fixpoint getenv (env : environ) (name : str) : option str :=
  match env with
  | [] => None
  | (k, v) :: rest => if str_eqb k name then Some v else getenv rest name
  end.

Definition warning_sign : str := [9888%N; 65039%N].
Definition newline : str := [10%N].

(** The two [ValueError] messages, lines 43-46 and 50-54. *)
Definition missing_key_message : str :=
  lit "OPENAI_API_KEY environment variable is required. "
  ++ lit "Please set it in your .env file or environment.".

Definition placeholder_message : str :=
  warning_sign ++ lit "  ERROR: API key appears to be a 1Password reference (op://...)." ++ newline
  ++ lit "You need to use the actual API key value, not the 1Password reference." ++ newline
  ++ lit "Please copy the actual key from 1Password (starts with 'sk-') and update your .env file.".

(** [mask_api_key], lines 64-68. *)
Definition mask_api_key (key : str) : str :=
  if length key <=? 11 then times 42%N (length key)
  else slice_to 7 key ++ lit "..." ++ slice_last 4 key.

(** Lines printed when the prefix or the length look unusual (56-61). *)
Definition prefix_warning (key : str) : list str :=
  if negb (startswith key (lit "sk-")) then
    [ warning_sign ++ lit "  WARNING: API key doesn't start with 'sk-'. This may not be a valid OpenAI API key.";
      lit "   Key starts with: " ++ slice_to 10 key ++ lit "..." ]
  else [].

Definition length_warning (key : str) : list str :=
  if length key <? 40 then
    [ warning_sign ++ lit "  WARNING: API key seems too short (" ++ str_of_nat (length key)
      ++ lit " chars). OpenAI keys are typically 50+ characters." ]
  else [].

Definition rule : str := times 61%N 60.

(** The banner of lines 70-77. *)
Definition banner (key : str) : list str :=
  [ newline ++ rule;
    [128640%N] ++ lit " TanStack AI FastAPI Server Starting (OpenAI)...";
    rule;
    [9989%N] ++ lit " OPENAI_API_KEY loaded: " ++ mask_api_key key;
    lit "   Key length: " ++ str_of_nat (length key) ++ lit " characters";
    [127760%N] ++ lit " Server will start on: http://0.0.0.0:8001";
    lit "   (Note: If running with uvicorn manually, use: uvicorn openai-server:app --reload --port 8001)";
    rule ++ newline ].

(** What executing the module body does: it raises [ValueError] and the
    process ends before any route is served, or it reaches line 79 with the
    key handed to [AsyncOpenAI] and the lines written to standard output. *)
Inductive outcome : Type :=
| Raised (value_error : str)
| Loaded (api_key : str) (stdout : list str).

Definition module_body (env : environ) : outcome :=
  match getenv env (lit "OPENAI_API_KEY") with
  | None => Raised missing_key_message
  | Some key =>
      if negb (truthy (PStr key)) then Raised missing_key_message
      else if startswith key (lit "op://") then Raised placeholder_message
      else Loaded key (prefix_warning key ++ length_warning key ++ banner key)
  end.

(** The server accepts connections only once the module body has run to its
    end ([uvicorn] imports the module, or line 181 is reached). *)
Definition serves (env : environ) : bool :=
  match module_body env with
  | Raised _ => false
  | Loaded _ _ => true
  end.

End Startup.

(** ** Request models, lines 82-92 *)

Record Message : Type := {
  role : str;
  content : option str;
  name : option str;
  toolCalls : option (list dict);
  toolCallId : option str
}.

Record ChatRequest : Type := {
  messages : list Message;
  data : option dict
}.

(** Deserialization of a JSON body into the declared models, as the framework
    derives it from the two class declarations: a field typed [str] takes a
    JSON string, an [Optional] field may be absent or [null], [List[...]]
    takes an array of any length, [Dict[str, Any]] any object, and keys that
    are not declared are ignored. *)
Module Validate.

Definition as_str (v : value) : option str :=
  match v with PStr s => Some s | _ => None end.

Definition as_dict (v : value) : option dict :=
  match v with PDict d => Some d | _ => None end.

Fixpoint each {A B : Type} (f : A -> option B) (l : list A) : option (list B) :=
  match l with
  | [] => Some []
  | x :: rest =>
      match f x, each f rest with
      | Some y, Some ys => Some (y :: ys)
      | _, _ => None
      end
  end.

Definition as_list {B : Type} (f : value -> option B) (v : value) : option (list B) :=
  match v with PList l => each f l | _ => None end.

Definition required {B : Type} (f : value -> option B) (d : dict) (k : str) : option B :=
  match lookup d k with
  | Some v => f v
  | None => None
  end.

Definition optional {B : Type} (f : value -> option B) (d : dict) (k : str)
  : option (option B) :=
  match lookup d k with
  | None | Some PNone => Some None
  | Some v => match f v with Some b => Some (Some b) | None => None end
  end.

Definition message (v : value) : option Message :=
  match v with
  | PDict d =>
      match required as_str d (lit "role"),
            optional as_str d (lit "content"),
            optional as_str d (lit "name"),
            optional (as_list as_dict) d (lit "toolCalls"),
            optional as_str d (lit "toolCallId") with
      | Some r, Some c, Some n, Some tc, Some tci =>
          Some {| role := r; content := c; name := n; toolCalls := tc; toolCallId := tci |}
      | _, _, _, _, _ => None
      end
  | _ => None
  end.

Definition chat_request (body : value) : option ChatRequest :=
  match body with
  | PDict d =>
      match required (as_list message) d (lit "messages"),
            optional as_dict d (lit "data") with
      | Some ms, Some dt => Some {| messages := ms; data := dt |}
      | _, _ => None
      end
  | _ => None
  end.

End Validate.

(** The keyword arguments of [client.chat.completions.create], lines 123-129. *)
Module Completions.
Record kwargs (M : Type) : Type := {
  model : value;
  messages : M;
  max_tokens : Z;
  temperature : float;
  stream : bool
}.
End Completions.

(** ** The endpoint and its stream relay, lines 95-176 *)

(** A frame of the response body, tagged with the [yield] statement that
    produced it: line 143 (one chunk of an event), line 149 (the completion
    marker) or line 155 (the error chunk). *)
Inductive yield_site : Type := DataFrame | DoneFrame | ErrorFrame.

Record frame : Type := { site : yield_site; text : str }.

Definition site_eqb (a b : yield_site) : bool :=
  match a, b with
  | DataFrame, DataFrame | DoneFrame, DoneFrame | ErrorFrame, ErrorFrame => true
  | _, _ => false
  end.

(** How many frames of a body came from a given [yield]. *)
Definition count (k : yield_site) (fs : list frame) : nat :=
  length (filter (fun f => site_eqb (site f) k) fs).

Definition is_data (f : frame) : Prop := site f = DataFrame.

(** [model = request.data.get("model") if request.data and
    request.data.get("model") else "gpt-4o"], line 109. *)
Definition select_model (data : option dict) : value :=
  match data with
  | Some d =>
      if truthy (PDict d) && truthy (get d (lit "model"))
      then get d (lit "model")
      else PStr (lit "gpt-4o")
  | None => PStr (lit "gpt-4o")
  end.

(** [health_check], lines 173-176. *)
Definition health_check : value :=
  PDict [ (lit "status", PStr (lit "ok"));
          (lit "service", PStr (lit "tanstack-ai-fastapi-openai")) ].

(** *** What the program receives from outside *)

(** Something raised: an instance of [Exception], or a [BaseException] that
    is not an [Exception] (cancellation, interpreter exit), which the two
    handlers of the file, both [except Exception], do not catch. *)
Inductive raised (exn signal : Type) : Type :=
| Exc (e : exn)
| Signal (b : signal).

Arguments Exc {exn signal} e.
Arguments Signal {exn signal} b.

(** A call either raises or returns. *)
Definition result (exn signal A : Type) : Type := (raised exn signal + A)%type.

(** What [async for event in stream] observes, step by step. *)
Inductive upstream (event exn signal : Type) : Type :=
| Exhausted
| Next (ev : event) (rest : upstream event exn signal)
| Fails (r : raised exn signal).

Arguments Exhausted {event exn signal}.
Arguments Next {event exn signal} ev rest.
Arguments Fails {event exn signal} r.

(** A chunk is a [Dict[str, Any]] (line 141 calls [chunk.get]). *)
Definition chunk : Type := dict.

Class Collaborators : Type := {
  event : Type;
  provider_messages : Type;
  converter : Type;
  exn : Type;
  signal : Type;
  (** [str(e)] *)
  str_of_exn : exn -> str;
  (** [tanstack_ai] *)
  format_messages_for_openai : list Message -> result exn signal provider_messages;
  StreamChunkConverter : value -> str -> result exn signal converter;
  convert_event : converter -> event -> converter * result exn signal (list chunk);
  convert_error : converter -> exn -> chunk;
  format_sse_chunk : chunk -> str;
  format_sse_done : str;
  (** [client.chat.completions.create] *)
  create : Completions.kwargs provider_messages -> result exn signal (upstream event exn signal)
}.

Section Relay.

Context {world : Collaborators}.

Definition stream_of (evs : list event) : upstream event exn signal :=
  fold_right Next Exhausted evs.

Definition data_frame (c : chunk) : frame :=
  {| site := DataFrame; text := format_sse_chunk c |}.

Definition done_frame : frame :=
  {| site := DoneFrame; text := format_sse_done |}.

Definition error_frame (c : chunk) : frame :=
  {| site := ErrorFrame; text := format_sse_chunk c |}.

(** The [async for] loop, lines 132-143: the frames yielded, the converter as
    the loop left it, and what ended the loop early, if anything did. *)
Fixpoint relay_events (conv : converter) (s : upstream event exn signal)
  : list frame * converter * option (raised exn signal) :=
  match s with
  | Exhausted => ([], conv, None)
  | Fails r => ([], conv, Some r)
  | Next ev rest =>
      match convert_event conv ev with
      | (conv', inl r) => ([], conv', Some r)
      | (conv', inr chunks) =>
          let '(fs, conv'', stop) := relay_events conv' rest in
          (map data_frame chunks ++ fs, conv'', stop)
      end
  end.

(** The keyword arguments of line 123; [temperature] is the double [0.7]. *)
Definition create_kwargs (model : value) (openai_messages : provider_messages)
  : Completions.kwargs provider_messages :=
  {| Completions.model := model;
     Completions.messages := openai_messages;
     Completions.max_tokens := 1024;
     Completions.temperature := 0x1.6666666666666p-1%float;
     Completions.stream := true |}.

(** The [try] suite of the generator, lines 120-149. *)
Definition stream_try (model : value) (openai_messages : provider_messages)
  (conv : converter) : list frame * converter * option (raised exn signal) :=
  match create (create_kwargs model openai_messages) with
  | inl r => ([], conv, Some r)
  | inr s =>
      match relay_events conv s with
      | (fs, conv', None) => (fs ++ [done_frame], conv', None)
      | (fs, conv', Some r) => (fs, conv', Some r)
      end
  end.

(** How the generator stops: it returns, or something the handler of line 151
    does not catch leaves it. *)
Inductive ending : Type :=
| Closed
| Propagated (b : signal).

(** A generator consumed to its end: the call it made upstream, the frames it
    yielded in order, and how it stopped. *)
Record run : Type := {
  upstream_calls : list (Completions.kwargs provider_messages);
  frames : list frame;
  stopped : ending
}.

(** [generate_stream], lines 115-155. *)
Definition generate_stream (model : value) (openai_messages : provider_messages)
  (conv : converter) : run :=
  let calls := [create_kwargs model openai_messages] in
  match stream_try model openai_messages conv with
  | (fs, _, None) =>
      {| upstream_calls := calls; frames := fs; stopped := Closed |}
  | (fs, conv', Some (Exc e)) =>
      {| upstream_calls := calls;
         frames := fs ++ [error_frame (convert_error conv' e)];
         stopped := Closed |}
  | (fs, _, Some (Signal b)) =>
      {| upstream_calls := calls; frames := fs; stopped := Propagated b |}
  end.

Record StreamingResponse : Type := {
  body : run;
  media_type : str;
  headers : list (str * str)
}.

(** What a call of the endpoint function does. *)
Inductive endpoint_result : Type :=
| Returned (response : StreamingResponse)
| HTTPException (status_code : Z) (detail : str)
| Escaped (b : signal).

(** [chat_endpoint], lines 96-170. *)
Definition chat_endpoint (request : ChatRequest) : endpoint_result :=
  match format_messages_for_openai request.(messages) with
  | inl (Exc e) => HTTPException 500 (str_of_exn e)
  | inl (Signal b) => Escaped b
  | inr openai_messages =>
      let model := select_model request.(data) in
      match StreamChunkConverter model (lit "openai") with
      | inl (Exc e) => HTTPException 500 (str_of_exn e)
      | inl (Signal b) => Escaped b
      | inr conv =>
          Returned
            {| body := generate_stream model openai_messages conv;
               media_type := lit "text/event-stream";
               headers := [ (lit "Cache-Control", lit "no-cache");
                            (lit "Connection", lit "keep-alive");
                            (lit "X-Accel-Buffering", lit "no") ] |}
      end
  end.

(** The loop once more, with the two counters of lines 117-118 as part of its
    state: [event_count] grows at line 133, for every event received,
    [chunk_count] at line 140, for every chunk sent. *)
Record counters : Type := { event_count : nat; chunk_count : nat }.

Fixpoint relay_counting (n : counters) (conv : converter)
  (s : upstream event exn signal)
  : list frame * converter * option (raised exn signal) * counters :=
  match s with
  | Exhausted => ([], conv, None, n)
  | Fails r => ([], conv, Some r, n)
  | Next ev rest =>
      let n1 := {| event_count := n.(event_count) + 1;
                   chunk_count := n.(chunk_count) |} in
      match convert_event conv ev with
      | (conv', inl r) => ([], conv', Some r, n1)
      | (conv', inr chunks) =>
          let n2 := {| event_count := n1.(event_count);
                       chunk_count := n1.(chunk_count) + length chunks |} in
          let '(fs, conv'', stop, n3) := relay_counting n2 conv' rest in
          (map data_frame chunks ++ fs, conv'', stop, n3)
      end
  end.

(** The message logged at line 145, when the loop has ended normally. *)
Definition stream_complete_message (n : counters) : str :=
  [9989%N] ++ lit " Stream complete - " ++ str_of_nat n.(event_count)
  ++ lit " events, " ++ str_of_nat n.(chunk_count) ++ lit " chunks sent".

(** *** The application: the two routes registered on [app] *)

Record http_request : Type := {
  method : str;
  path : str;
  json : option value
}.

Inductive http_response : Type :=
| JSONResponse (status : Z) (content_json : value)
| EventStream (status : Z) (response : StreamingResponse)
| Unprocessable
| NotFound
| MethodNotAllowed
| Aborted (b : signal).

Definition app (req : http_request) : http_response :=
  if str_eqb req.(path) (lit "/chat") then
    if str_eqb req.(method) (lit "POST") then
      match req.(json) with
      | Some payload =>
          match Validate.chat_request payload with
          | Some request =>
              match chat_endpoint request with
              | Returned response => EventStream 200 response
              | HTTPException status_code detail =>
                  JSONResponse status_code (PDict [(lit "detail", PStr detail)])
              | Escaped b => Aborted b
              end
          | None => Unprocessable
          end
      | None => Unprocessable
      end
    else MethodNotAllowed
  else if str_eqb req.(path) (lit "/health") then
    if str_eqb req.(method) (lit "GET") then JSONResponse 200 health_check
    else MethodNotAllowed
  else NotFound.

(** The process keeps nothing from one request to the next: each response is
    computed from its own request. *)
Definition serve (reqs : list http_request) : list http_response :=
  map app reqs.

(** [converts conv evs chunks conv']: the converter, starting as [conv],
    answers each event of [evs] in turn with a list of chunks, these lists
    are [chunks], and it is left as [conv']. *)
Inductive converts
  : converter -> list event -> list (list chunk) -> converter -> Prop :=
| converts_nil conv : converts conv [] [] conv
| converts_cons conv conv1 conv' ev evs chunks rest :
    convert_event conv ev = (conv1, inr chunks) ->
    converts conv1 evs rest conv' ->
    converts conv (ev :: evs) (chunks :: rest) conv'.

End Relay.

(** ** A simulated deployment

    One instance of [Collaborators] to run the endpoint on: events carry a
    number of content parts, the converter counts the chunks it has produced,
    and the upstream answers by model name. *)
Module Sim.

Inductive ev : Type :=
| Delta (parts : nat)
| Malformed.

Definition content_chunk (i : nat) : chunk :=
  [ (lit "type", PStr (lit "content")); (lit "index", PInt (Z.of_nat i)) ].

Definition convert (seen : nat) (e : ev) : nat * result str unit (list chunk) :=
  match e with
  | Delta n => (seen + n, inr (map content_chunk (seq seen n)))
  | Malformed => (seen, inl (Exc (lit "malformed event")))
  end.

Definition on_error (seen : nat) (e : str) : chunk :=
  [ (lit "type", PStr (lit "error")); (lit "message", PStr e) ].

Definition tag (c : chunk) : str :=
  match get c (lit "type") with
  | PStr s => s
  | _ => lit "unknown"
  end.

Definition sse (c : chunk) : str := lit "data: " ++ tag c ++ [10%N; 10%N].

Definition sse_done : str := lit "data: [DONE]" ++ [10%N; 10%N].

Definition adapt (ms : list Message) : result str unit (list (str * str)) :=
  if existsb (fun m => negb (truthy (PStr m.(role)))) ms
  then inl (Exc (lit "message without a role"))
  else inr (map (fun m => (m.(role), match m.(content) with Some c => c | None => [] end)) ms).

Definition new_converter (model : value) (provider : str) : result str unit nat :=
  match model with
  | PStr _ => inr 0
  | _ => inl (Exc (lit "model must be a string"))
  end.

Definition open_stream (kw : Completions.kwargs (list (str * str)))
  : result str unit (upstream ev str unit) :=
  match kw.(Completions.messages), kw.(Completions.model) with
  | [], _ => inl (Exc (lit "messages: array too short"))
  | _ :: _, PStr m =>
      if str_eqb m (lit "gpt-4o")
      then inr (Next (Delta 2) (Next (Delta 0) (Next (Delta 1) Exhausted)))
      else if str_eqb m (lit "flaky")
      then inr (Next (Delta 1) (Fails (Exc (lit "connection reset"))))
      else inl (Exc (lit "model not found"))
  | _ :: _, _ => inl (Exc (lit "model not found"))
  end.

Definition world : Collaborators :=
  {| event := ev;
     provider_messages := list (str * str);
     converter := nat;
     exn := str;
     signal := unit;
     str_of_exn := fun e => e;
     format_messages_for_openai := adapt;
     StreamChunkConverter := new_converter;
     convert_event := convert;
     convert_error := on_error;
     format_sse_chunk := sse;
     format_sse_done := sse_done;
     create := open_stream |}.

Definition user_says (text : str) : Message :=
  {| role := lit "user"; content := Some text; name := None;
     toolCalls := None; toolCallId := None |}.

Definition post_chat (payload : value) : http_request :=
  {| method := lit "POST"; path := lit "/chat"; json := Some payload |}.

End Sim.

(** ** A deployment that fails

    A second instance, whose upstream sends an event the converter cannot
    read, is cancelled in the middle of a stream, or refuses the call, by
    model name; its adapter is interrupted on a message of role [stop]. *)
Module Faulty.

Definition adapt (ms : list Message) : result str unit (list (str * str)) :=
  if existsb (fun m => str_eqb m.(role) (lit "stop")) ms
  then inl (Signal tt)
  else Sim.adapt ms.

Definition open_stream (kw : Completions.kwargs (list (str * str)))
  : result str unit (upstream Sim.ev str unit) :=
  match kw.(Completions.model) with
  | PStr m =>
      if str_eqb m (lit "garbled")
      then inr (Next (Sim.Delta 2) (Next Sim.Malformed (Next (Sim.Delta 5) Exhausted)))
      else if str_eqb m (lit "cancelled")
      then inr (Next (Sim.Delta 1) (Fails (Signal tt)))
      else if str_eqb m (lit "dropped")
      then inr (Next (Sim.Delta 1) (Next (Sim.Delta 2) (Fails (Exc (lit "connection reset")))))
      else inl (Exc (lit "service unavailable"))
  | _ => inl (Exc (lit "service unavailable"))
  end.

Definition world : Collaborators :=
  {| event := Sim.ev;
     provider_messages := list (str * str);
     converter := nat;
     exn := str;
     signal := unit;
     str_of_exn := fun e => e;
     format_messages_for_openai := adapt;
     StreamChunkConverter := Sim.new_converter;
     convert_event := Sim.convert;
     convert_error := Sim.on_error;
     format_sse_chunk := Sim.sse;
     format_sse_done := Sim.sse_done;
     create := open_stream |}.

End Faulty.

(** A list of known length, spelled out element by element. *)
Ltac spell_out key :=
  repeat (destruct key as [|? key]; cbn [length] in *; try lia).

(** * Properties *)

(** ** Start-up *)

Lemma startswith_nonempty (s p : str) :
  startswith s p = true -> p <> [] -> s <> [].
Proof.
  destruct p as [|c p]; [congruence|].
  destruct s; [discriminate | intros _ _; discriminate].
Qed.

(** C4: with the credential variable unset, or set to the empty string, the
    module body raises the missing-key [ValueError] and nothing is served. *)
Theorem missing_credential_refused (env : Startup.environ) :
  Startup.getenv env (lit "OPENAI_API_KEY") = None \/
  Startup.getenv env (lit "OPENAI_API_KEY") = Some [] ->
  Startup.module_body env = Startup.Raised Startup.missing_key_message /\
  Startup.serves env = false.
Proof.
  unfold Startup.serves, Startup.module_body.
  intros [-> | ->]; split; reflexivity.
Qed.

Lemma missing_credential_refused_witness :
  (Startup.module_body [] = Startup.Raised Startup.missing_key_message /\
   Startup.serves [] = false) /\
  (Startup.module_body [(lit "OPENAI_API_KEY", [])]
     = Startup.Raised Startup.missing_key_message /\
   Startup.serves [(lit "OPENAI_API_KEY", [])] = false).
Proof.
  split.
  - apply (missing_credential_refused []). left. reflexivity.
  - apply (missing_credential_refused [(lit "OPENAI_API_KEY", [])]).
    right. reflexivity.
Defined.

(** C5: a credential that starts with [op://] makes the module body raise a
    [ValueError] too, nothing is served, and its message is not the one of
    the missing credential. *)
Theorem placeholder_credential_refused (env : Startup.environ) (key : str) :
  Startup.getenv env (lit "OPENAI_API_KEY") = Some key ->
  startswith key (lit "op://") = true ->
  Startup.module_body env = Startup.Raised Startup.placeholder_message /\
  Startup.serves env = false /\
  Startup.placeholder_message <> Startup.missing_key_message.
Proof.
  intros Henv Hop.
  assert (Hne : key <> []) by (eapply startswith_nonempty; [eassumption | discriminate]).
  unfold Startup.serves, Startup.module_body. rewrite Henv.
  destruct key as [|c key]; [congruence|]. cbn [truthy negb].
  rewrite Hop. repeat split. discriminate.
Qed.

Lemma placeholder_credential_refused_witness :
  Startup.module_body [(lit "OPENAI_API_KEY", lit "op://Private/OpenAI/credential")]
    = Startup.Raised Startup.placeholder_message /\
  Startup.serves [(lit "OPENAI_API_KEY", lit "op://Private/OpenAI/credential")] = false /\
  Startup.placeholder_message <> Startup.missing_key_message.
Proof.
  apply (@placeholder_credential_refused
           [(lit "OPENAI_API_KEY", lit "op://Private/OpenAI/credential")]
           (lit "op://Private/OpenAI/credential")); reflexivity.
Defined.

(** *** [mask_api_key] *)

Lemma mask_api_key_short (key : str) :
  length key <= 11 -> Startup.mask_api_key key = times 42%N (length key).
Proof.
  intros Hlen. unfold Startup.mask_api_key.
  destruct (Nat.leb_spec (length key) 11) as [_ | Hgt]; [reflexivity | lia].
Qed.

Lemma mask_api_key_long (key : str) :
  11 < length key ->
  Startup.mask_api_key key = slice_to 7 key ++ lit "..." ++ slice_last 4 key.
Proof.
  intros Hlen. unfold Startup.mask_api_key.
  destruct (Nat.leb_spec (length key) 11) as [Hle | _]; [lia | reflexivity].
Qed.

Lemma mask_api_key_long_length (key : str) :
  11 < length key -> length (Startup.mask_api_key key) = 14.
Proof.
  intros Hlen. rewrite mask_api_key_long by assumption.
  unfold slice_to, slice_last.
  rewrite !length_app, length_firstn, length_skipn. cbn [lit length]. lia.
Qed.

Lemma firstn_app_exact (A : Type) (n : nat) (a b : list A) :
  length a = n -> firstn n (a ++ b) = a.
Proof.
  intros <-. rewrite firstn_app, Nat.sub_diag, firstn_O, app_nil_r.
  apply firstn_all.
Qed.

Lemma skipn_app_exact (A : Type) (n : nat) (a b : list A) :
  length a = n -> skipn n (a ++ b) = b.
Proof.
  intros <-. rewrite skipn_app, Nat.sub_diag, skipn_all. reflexivity.
Qed.

(** C10: a credential of at most 11 characters is masked into asterisks
    alone, as many as it has characters. *)
Theorem short_key_all_asterisks (key : str) :
  length key <= 11 ->
  Startup.mask_api_key key = times 42%N (length key) /\
  length (Startup.mask_api_key key) = length key /\
  Forall (fun c => c = N_of_ascii "*") (Startup.mask_api_key key).
Proof.
  intros Hlen. rewrite (mask_api_key_short key Hlen). unfold times.
  split; [reflexivity | split].
  - apply repeat_length.
  - apply Forall_forall. intros c Hin. apply repeat_spec in Hin. exact Hin.
Qed.

Lemma short_key_all_asterisks_witness :
  Startup.mask_api_key (lit "sk-test") = times 42%N (length (lit "sk-test")) /\
  length (Startup.mask_api_key (lit "sk-test")) = length (lit "sk-test") /\
  Forall (fun c => c = N_of_ascii "*") (Startup.mask_api_key (lit "sk-test")).
Proof.
  apply (@short_key_all_asterisks (lit "sk-test")). cbn. lia.
Defined.

(** C6, as the claim states it, fails: a 14-character credential whose
    characters 8 to 10 are dots is returned unchanged, and a short credential
    shows none of its first 7 characters. *)
Lemma mask_api_key_counterexample :
  (lit "sk-abcd...wxyz" <> [] /\
   Startup.mask_api_key (lit "sk-abcd...wxyz") = lit "sk-abcd...wxyz") /\
  (slice_to 7 (Startup.mask_api_key (lit "sk-12345")) <> slice_to 7 (lit "sk-12345")).
Proof.
  split; [split|].
  - discriminate.
  - reflexivity.
  - cbn. discriminate.
Qed.

(** C6, amended: a credential longer than 11 characters is masked into its
    first 7 characters, three dots and its last 4 characters, 14 characters
    whatever its length; a shorter one into asterisks alone.  The result is
    the credential itself exactly when it is made of at most 11 asterisks, or
    has 14 characters with dots as characters 8 to 10. *)
Theorem mask_api_key_shape (key : str) :
  (11 < length key ->
   Startup.mask_api_key key = slice_to 7 key ++ lit "..." ++ slice_last 4 key /\
   length (Startup.mask_api_key key) = 14 /\
   slice_to 7 (Startup.mask_api_key key) = slice_to 7 key /\
   slice_last 4 (Startup.mask_api_key key) = slice_last 4 key) /\
  (length key <= 11 -> Startup.mask_api_key key = times 42%N (length key)) /\
  (Startup.mask_api_key key = key <->
     (length key <= 11 /\ key = times 42%N (length key)) \/
     (length key = 14 /\ slice_to 3 (skipn 7 key) = lit "...")).
Proof.
  split; [|split].
  - intros Hlen. pose proof (mask_api_key_long_length key Hlen) as Hm.
    rewrite (mask_api_key_long key Hlen) in *.
    split; [reflexivity | split; [exact Hm | split]].
    + unfold slice_to. apply firstn_app_exact. rewrite length_firstn. lia.
    + unfold slice_last at 1. rewrite Hm.
      change (14 - 4) with 10. rewrite app_assoc.
      apply skipn_app_exact. unfold slice_to.
      rewrite length_app, length_firstn. cbn [lit length]. lia.
  - apply mask_api_key_short.
  - split.
    + intros Heq. destruct (Nat.le_gt_cases (length key) 11) as [Hle | Hgt].
      * left. split; [exact Hle|]. rewrite <- (mask_api_key_short key Hle). now symmetry.
      * right. pose proof (mask_api_key_long_length key Hgt) as Hm.
        rewrite Heq in Hm. split; [exact Hm|].
        rewrite (mask_api_key_long key Hgt) in Heq.
        spell_out key. cbn in Heq. injection Heq as H8 H9 H10. subst. reflexivity.
    + intros [[Hle Hstars] | [Hlen Hdots]].
      * rewrite (mask_api_key_short key Hle). now symmetry.
      * rewrite mask_api_key_long by lia.
        spell_out key. cbn in Hdots. injection Hdots as H8 H9 H10. subst. reflexivity.
Qed.

Lemma mask_api_key_shape_witness :
  Startup.mask_api_key (lit "sk-proj-0123456789abcdef")
    = slice_to 7 (lit "sk-proj-0123456789abcdef") ++ lit "..."
      ++ slice_last 4 (lit "sk-proj-0123456789abcdef") /\
  length (Startup.mask_api_key (lit "sk-proj-0123456789abcdef")) = 14 /\
  slice_to 7 (Startup.mask_api_key (lit "sk-proj-0123456789abcdef"))
    = slice_to 7 (lit "sk-proj-0123456789abcdef") /\
  slice_last 4 (Startup.mask_api_key (lit "sk-proj-0123456789abcdef"))
    = slice_last 4 (lit "sk-proj-0123456789abcdef").
Proof.
  apply (proj1 (mask_api_key_shape (lit "sk-proj-0123456789abcdef"))).
  cbn. lia.
Defined.

(** The prefix warning of line 58 prints the first 10 characters of the
    credential: one of at most 10 characters that does not start with [sk-]
    (nor with [op://]) is written to standard output whole. *)
Theorem prefix_warning_prints_short_key (env : Startup.environ) (key : str) :
  Startup.getenv env (lit "OPENAI_API_KEY") = Some key ->
  key <> [] ->
  startswith key (lit "op://") = false ->
  startswith key (lit "sk-") = false ->
  length key <= 10 ->
  exists stdout,
    Startup.module_body env = Startup.Loaded key stdout /\
    In (lit "   Key starts with: " ++ key ++ lit "...") stdout.
Proof.
  intros Henv Hne Hop Hsk Hlen.
  unfold Startup.module_body. rewrite Henv.
  destruct key as [|c key]; [congruence|]. cbn [truthy negb].
  rewrite Hop. eexists. split; [reflexivity|].
  apply in_or_app. left. unfold Startup.prefix_warning. rewrite Hsk.
  cbn [negb]. right. left. unfold slice_to.
  rewrite firstn_all2 by exact Hlen. reflexivity.
Qed.

Lemma prefix_warning_prints_short_key_witness :
  exists stdout,
    Startup.module_body [(lit "OPENAI_API_KEY", lit "hunter2")]
      = Startup.Loaded (lit "hunter2") stdout /\
    In (lit "   Key starts with: " ++ lit "hunter2" ++ lit "...") stdout.
Proof.
  apply (@prefix_warning_prints_short_key
           [(lit "OPENAI_API_KEY", lit "hunter2")] (lit "hunter2"));
    try reflexivity.
  - discriminate.
  - cbn. lia.
Defined.

(** ** The stream relay *)

Section RelayFacts.

Context {world : Collaborators}.

Lemma count_app (k : yield_site) (a b : list frame) :
  count k (a ++ b) = count k a + count k b.
Proof.
  unfold count. rewrite filter_app. apply length_app.
Qed.

Lemma count_of_data (fs : list frame) :
  Forall is_data fs ->
  count DataFrame fs = length fs /\ count DoneFrame fs = 0 /\ count ErrorFrame fs = 0.
Proof.
  unfold count, is_data.
  induction 1 as [|f fs Hf _ (IHdata & IHdone & IHerr)]; [repeat split|].
  cbn [filter]. rewrite Hf. cbn. repeat split; congruence.
Qed.

Lemma data_frames_are_data (cs : list chunk) : Forall is_data (map data_frame cs).
Proof.
  apply Forall_forall. intros f Hin. apply in_map_iff in Hin.
  destruct Hin as (c & <- & _). reflexivity.
Qed.

(** The loop yields data frames only. *)
Lemma relay_events_yields_data (s : upstream event exn signal) :
  forall conv fs conv' stop,
    relay_events conv s = (fs, conv', stop) -> Forall is_data fs.
Proof.
  induction s as [| ev rest IH | r]; cbn [relay_events]; intros conv fs conv' stop Hrun.
  - injection Hrun as <- _ _. constructor.
  - destruct (convert_event conv ev) as [conv1 [r | chunks]].
    + injection Hrun as <- _ _. constructor.
    + destruct (relay_events conv1 rest) as [[fs1 conv2] stop1] eqn:Hrest.
      injection Hrun as <- _ _. apply Forall_app. split.
      * apply data_frames_are_data.
      * eapply IH. eassumption.
  - injection Hrun as <- _ _. constructor.
Qed.

(** When every event converts, the loop yields the chunks of the events in
    arrival order and ends without an exception. *)
Lemma relay_events_converts (conv conv' : converter) (evs : list event)
  (chunks : list (list chunk)) :
  converts conv evs chunks conv' ->
  relay_events conv (stream_of evs) = (map data_frame (concat chunks), conv', None).
Proof.
  induction 1 as [conv | conv conv1 conv' ev evs cs rest Hev _ IH].
  - reflexivity.
  - cbn [stream_of fold_right relay_events]. rewrite Hev.
    unfold stream_of in IH. rewrite IH.
    cbn [concat]. rewrite map_app. reflexivity.
Qed.

Lemma converts_length (conv conv' : converter) (evs : list event)
  (chunks : list (list chunk)) :
  converts conv evs chunks conv' -> length chunks = length evs.
Proof.
  induction 1; cbn [length]; congruence.
Qed.

Lemma length_concat_sum (A : Type) (ls : list (list A)) :
  length (concat ls) = list_sum (map (@length A) ls).
Proof.
  induction ls as [|l ls IH]; [reflexivity|].
  cbn. rewrite length_app, IH. reflexivity.
Qed.

(** C1: when the upstream call returns a stream of the events [evs], and the
    converter turns them, in order, into the chunk lists [chunks], the
    generator yields the data frames of all those chunks, event by event and
    within an event in the converter's order, then the done frame once, and
    returns: the sum of the numbers of chunks, plus one, frames in all. *)
Theorem relay_complete (model : value) (openai_messages : provider_messages)
  (conv conv' : converter) (evs : list event) (chunks : list (list chunk)) :
  create (create_kwargs model openai_messages) = inr (stream_of evs) ->
  converts conv evs chunks conv' ->
  frames (generate_stream model openai_messages conv)
    = map data_frame (concat chunks) ++ [done_frame] /\
  stopped (generate_stream model openai_messages conv) = Closed /\
  length chunks = length evs /\
  count DataFrame (frames (generate_stream model openai_messages conv))
    = list_sum (map (@length chunk) chunks) /\
  count DoneFrame (frames (generate_stream model openai_messages conv)) = 1 /\
  count ErrorFrame (frames (generate_stream model openai_messages conv)) = 0 /\
  length (frames (generate_stream model openai_messages conv))
    = list_sum (map (@length chunk) chunks) + 1.
Proof.
  intros Hopen Hconv.
  pose proof (relay_events_converts Hconv) as Hrun.
  pose proof (count_of_data (data_frames_are_data (concat chunks)))
    as (Hdata & Hdone & Herr).
  unfold generate_stream, stream_try. rewrite Hopen, Hrun. cbn [frames stopped].
  rewrite !count_app, Hdata, Hdone, Herr, length_app, length_map, length_concat_sum.
  repeat split; try reflexivity.
  - eapply converts_length. eassumption.
  - cbn. lia.
Qed.

(** The [try] suite ends in one of two ways: it has yielded data frames and
    then the done frame, or it has yielded data frames only and raises. *)
Lemma stream_try_cases (model : value) (openai_messages : provider_messages)
  (conv conv' : converter) (fs : list frame) (stop : option (raised exn signal)) :
  stream_try model openai_messages conv = (fs, conv', stop) ->
  match stop with
  | None => exists ds, fs = ds ++ [done_frame] /\ Forall is_data ds
  | Some _ => Forall is_data fs
  end.
Proof.
  unfold stream_try.
  destruct (create (create_kwargs model openai_messages)) as [r | s].
  - intros Hrun. injection Hrun as <- _ <-. constructor.
  - destruct (relay_events conv s) as [[ds conv1] [r|]] eqn:Hloop;
      intros Hrun; injection Hrun as <- _ <-;
      apply relay_events_yields_data in Hloop.
    + exact Hloop.
    + exists ds. split; [reflexivity | exact Hloop].
Qed.

(** An exception raised by the upstream call itself reaches the handler with
    no frame yielded. *)
Lemma stream_try_open_fails (model : value) (openai_messages : provider_messages)
  (conv : converter) (r : raised exn signal) :
  create (create_kwargs model openai_messages) = inl r ->
  stream_try model openai_messages conv = ([], conv, Some r).
Proof.
  intros Hopen. unfold stream_try. rewrite Hopen. reflexivity.
Qed.

(** An exception raised by the iteration, after events that converted, reaches
    the handler with the frames of those events yielded. *)
Lemma relay_events_iteration_fails (r : raised exn signal) (conv conv' : converter)
  (evs : list event) (chunks : list (list chunk)) :
  converts conv evs chunks conv' ->
  relay_events conv (fold_right Next (Fails r) evs)
    = (map data_frame (concat chunks), conv', Some r).
Proof.
  induction 1 as [conv | conv conv1 conv' ev evs cs rest Hev _ IH].
  - reflexivity.
  - cbn [fold_right relay_events]. rewrite Hev, IH.
    cbn [concat]. rewrite map_app. reflexivity.
Qed.

(** So does an exception raised by the converter on a later event. *)
Lemma relay_events_conversion_fails (r : raised exn signal)
  (conv conv1 conv' : converter) (evs : list event) (chunks : list (list chunk))
  (ev : event) (rest : upstream event exn signal) :
  converts conv evs chunks conv1 ->
  convert_event conv1 ev = (conv', inl r) ->
  relay_events conv (fold_right Next (Next ev rest) evs)
    = (map data_frame (concat chunks), conv', Some r).
Proof.
  intros Hconv Hbad.
  induction Hconv as [conv | conv conv0 conv1 ev' evs cs more Hev _ IH].
  - cbn [fold_right relay_events]. rewrite Hbad. reflexivity.
  - cbn [fold_right relay_events]. rewrite Hev, (IH Hbad).
    cbn [concat]. rewrite map_app. reflexivity.
Qed.

(** A generator that returns has yielded data frames and then one last frame,
    from line 149 or from line 155. *)
Lemma stream_ends_once (model : value) (openai_messages : provider_messages)
  (conv : converter) :
  stopped (generate_stream model openai_messages conv) = Closed ->
  exists ds last,
    frames (generate_stream model openai_messages conv) = ds ++ [last] /\
    Forall is_data ds /\
    (site last = DoneFrame \/ site last = ErrorFrame).
Proof.
  unfold generate_stream.
  destruct (stream_try model openai_messages conv) as [[fs conv'] stop] eqn:Htry.
  apply stream_try_cases in Htry.
  destruct stop as [[e | b]|]; cbn [frames stopped]; intros Hstop.
  - exists fs, (error_frame (convert_error conv' e)). auto.
  - discriminate.
  - destruct Htry as (ds & -> & Hds). exists ds, done_frame. auto.
Qed.

(** C2: when the [try] suite raises an exception [e] after the frames [fs]
    were yielded, whatever raised it (the upstream call, the iteration or the
    converter), those frames are data frames and the generator yields them,
    then the frame of [convert_error]'s chunk, and returns: no done frame and
    one error frame.  And a generator that returns has yielded one frame that
    is not a data frame, its last: the done frame or the error frame. *)
Theorem relay_failure (model : value) (openai_messages : provider_messages)
  (conv : converter) :
  (forall fs conv' e,
     stream_try model openai_messages conv = (fs, conv', Some (Exc e)) ->
     Forall is_data fs /\
     frames (generate_stream model openai_messages conv)
       = fs ++ [error_frame (convert_error conv' e)] /\
     stopped (generate_stream model openai_messages conv) = Closed /\
     count DataFrame (frames (generate_stream model openai_messages conv)) = length fs /\
     count DoneFrame (frames (generate_stream model openai_messages conv)) = 0 /\
     count ErrorFrame (frames (generate_stream model openai_messages conv)) = 1) /\
  (stopped (generate_stream model openai_messages conv) = Closed ->
   count DoneFrame (frames (generate_stream model openai_messages conv))
   + count ErrorFrame (frames (generate_stream model openai_messages conv)) = 1 /\
   exists ds last,
     frames (generate_stream model openai_messages conv) = ds ++ [last] /\
     Forall is_data ds /\
     (site last = DoneFrame \/ site last = ErrorFrame)).
Proof.
  split.
  - intros fs conv' e Htry.
    pose proof (stream_try_cases _ _ _ Htry) as Hdata. cbn in Hdata.
    destruct (count_of_data Hdata) as (Hn & Hdone & Herr).
    unfold generate_stream. rewrite Htry. cbn [frames stopped].
    rewrite !count_app, Hn, Hdone, Herr. cbn. repeat split; auto; lia.
  - intros Hstop. destruct (stream_ends_once _ _ _ Hstop) as (ds & last & Hfs & Hds & Hlast).
    split; [|exists ds, last; auto].
    destruct (count_of_data Hds) as (_ & Hdone & Herr).
    rewrite Hfs, !count_app, Hdone, Herr. unfold count. cbn.
    destruct Hlast as [-> | ->]; reflexivity.
Qed.

(** ** The endpoint *)

(** The route [POST /chat]: the body is deserialized, then the endpoint runs. *)
Lemma app_post_chat (payload : value) :
  app {| method := lit "POST"; path := lit "/chat"; json := Some payload |}
  = match Validate.chat_request payload with
    | Some request =>
        match chat_endpoint request with
        | Returned response => EventStream 200 response
        | HTTPException status_code detail =>
            JSONResponse status_code (PDict [(lit "detail", PStr detail)])
        | Escaped b => Aborted b
        end
    | None => Unprocessable
    end.
Proof. reflexivity. Qed.

(** C3: when the message adapter or the converter's constructor raises an
    exception, the endpoint raises [HTTPException] with status 500 and the
    text of the exception as its detail, which the framework answers as a 500
    response: no stream is returned. *)
Theorem pre_stream_failure (request : ChatRequest) (e : exn) :
  format_messages_for_openai request.(messages) = inl (Exc e) \/
  (exists openai_messages,
     format_messages_for_openai request.(messages) = inr openai_messages /\
     StreamChunkConverter (select_model request.(data)) (lit "openai") = inl (Exc e)) ->
  chat_endpoint request = HTTPException 500 (str_of_exn e) /\
  forall payload,
    Validate.chat_request payload = Some request ->
    app {| method := lit "POST"; path := lit "/chat"; json := Some payload |}
      = JSONResponse 500 (PDict [(lit "detail", PStr (str_of_exn e))]).
Proof.
  intros Hraise.
  assert (Hend : chat_endpoint request = HTTPException 500 (str_of_exn e)).
  { unfold chat_endpoint.
    destruct Hraise as [-> | (om & -> & ->)]; reflexivity. }
  split; [exact Hend|].
  intros payload Hvalid. rewrite app_post_chat, Hvalid, Hend. reflexivity.
Qed.

Lemma select_model_truthy (d : dict) (v : value) :
  lookup d (lit "model") = Some v -> truthy v = true ->
  select_model (Some d) = v.
Proof.
  intros Hkey Hv. unfold select_model, get. rewrite Hkey, Hv.
  destruct d; [discriminate | reflexivity].
Qed.

Lemma select_model_falsy (d : dict) (v : value) :
  lookup d (lit "model") = Some v -> truthy v = false ->
  select_model (Some d) = PStr (lit "gpt-4o").
Proof.
  intros Hkey Hv. unfold select_model, get. rewrite Hkey, Hv.
  rewrite andb_false_r. reflexivity.
Qed.

Lemma select_model_missing (d : dict) :
  lookup d (lit "model") = None ->
  select_model (Some d) = PStr (lit "gpt-4o").
Proof.
  intros Hkey. unfold select_model, get. rewrite Hkey.
  rewrite andb_false_r. reflexivity.
Qed.

(** C7, amended: the generator of a returned response calls the upstream once,
    and the model it passes is the value of the request's ["model"] option
    when the options are present and that value is truthy; it is ["gpt-4o"]
    when the value is falsy ([None], [False], [0], an empty string, list or
    dict), when the key is missing and when there are no options. *)
Theorem model_selection (request : ChatRequest) (response : StreamingResponse) :
  chat_endpoint request = Returned response ->
  exists kw,
    upstream_calls (body response) = [kw] /\
    Completions.model kw = select_model request.(data) /\
    (forall d v, request.(data) = Some d -> lookup d (lit "model") = Some v ->
                 truthy v = true -> Completions.model kw = v) /\
    (forall d v, request.(data) = Some d -> lookup d (lit "model") = Some v ->
                 truthy v = false -> Completions.model kw = PStr (lit "gpt-4o")) /\
    (forall d, request.(data) = Some d -> lookup d (lit "model") = None ->
               Completions.model kw = PStr (lit "gpt-4o")) /\
    (request.(data) = None -> Completions.model kw = PStr (lit "gpt-4o")).
Proof.
  unfold chat_endpoint.
  destruct (format_messages_for_openai request.(messages)) as [[e | b] | om];
    try discriminate.
  destruct (StreamChunkConverter (select_model request.(data)) (lit "openai"))
    as [[e | b] | conv]; try discriminate.
  intros Hret. injection Hret as <-. cbn [body].
  exists (create_kwargs (select_model request.(data)) om).
  split.
  { unfold generate_stream.
    destruct (stream_try _ om conv) as [[fs conv'] [[e | b]|]]; reflexivity. }
  cbn [create_kwargs Completions.model].
  split; [reflexivity|].
  repeat split.
  - intros d v -> Hkey Hv. now apply select_model_truthy.
  - intros d v -> Hkey Hv. now apply select_model_falsy with (v := v).
  - intros d -> Hkey. now apply select_model_missing.
  - intros ->. reflexivity.
Qed.

(** C8: a [GET /health] request is answered with status 200 and the fixed
    body, whatever the collaborators do, whatever else the request carries,
    and whatever requests were served before or are served after it. *)
Theorem health_always_ok (req : http_request) :
  req.(method) = lit "GET" ->
  req.(path) = lit "/health" ->
  app req = JSONResponse 200 health_check /\
  health_check = PDict [ (lit "status", PStr (lit "ok"));
                         (lit "service", PStr (lit "tanstack-ai-fastapi-openai")) ] /\
  forall before after,
    nth_error (serve (before ++ req :: after)) (length before)
      = Some (JSONResponse 200 health_check).
Proof.
  intros Hmethod Hpath.
  assert (Happ : app req = JSONResponse 200 health_check).
  { unfold app. rewrite Hmethod, Hpath. reflexivity. }
  split; [exact Happ | split; [reflexivity|]].
  intros before after. unfold serve. rewrite map_app. cbn [map].
  rewrite nth_error_app2 by (rewrite length_map; lia).
  rewrite length_map, Nat.sub_diag. cbn [nth_error]. now rewrite Happ.
Qed.

(** C9, amended: a body whose [messages] is an empty array (and whose [data],
    if any, is an object) deserializes to a request with no message; the
    application hands it to [chat_endpoint] as it does any request, and does
    not answer it as unprocessable.  When the endpoint returns a response and
    its generator returns, the body is data frames, none or more, and then
    one last frame: the done frame, or the error frame. *)
Theorem empty_messages_accepted (d : dict) (options : option dict) :
  lookup d (lit "messages") = Some (PList []) ->
  Validate.optional Validate.as_dict d (lit "data") = Some options ->
  Validate.chat_request (PDict d) = Some {| messages := []; data := options |} /\
  app {| method := lit "POST"; path := lit "/chat"; json := Some (PDict d) |}
    = match chat_endpoint {| messages := []; data := options |} with
      | Returned response => EventStream 200 response
      | HTTPException status_code detail =>
          JSONResponse status_code (PDict [(lit "detail", PStr detail)])
      | Escaped b => Aborted b
      end /\
  app {| method := lit "POST"; path := lit "/chat"; json := Some (PDict d) |}
    <> Unprocessable /\
  forall response,
    chat_endpoint {| messages := []; data := options |} = Returned response ->
    stopped (body response) = Closed ->
    exists ds last,
      frames (body response) = ds ++ [last] /\
      Forall is_data ds /\
      (site last = DoneFrame \/ site last = ErrorFrame).
Proof.
  intros Hmsgs Hdata.
  assert (Hvalid : Validate.chat_request (PDict d)
                   = Some {| messages := []; data := options |}).
  { unfold Validate.chat_request, Validate.required. rewrite Hmsgs, Hdata. reflexivity. }
  assert (Happ : app {| method := lit "POST"; path := lit "/chat"; json := Some (PDict d) |}
                 = match chat_endpoint {| messages := []; data := options |} with
                   | Returned response => EventStream 200 response
                   | HTTPException status_code detail =>
                       JSONResponse status_code (PDict [(lit "detail", PStr detail)])
                   | Escaped b => Aborted b
                   end).
  { rewrite app_post_chat, Hvalid. reflexivity. }
  split; [exact Hvalid | split; [exact Happ | split]].
  - rewrite Happ. destruct (chat_endpoint _); discriminate.
  - unfold chat_endpoint. cbn [messages data].
    destruct (format_messages_for_openai []) as [[e | b] | om]; try discriminate.
    destruct (StreamChunkConverter (select_model options) (lit "openai"))
      as [[e | b] | conv]; try discriminate.
    intros response Hret. injection Hret as <-. cbn [body].
    apply stream_ends_once.
Qed.

End RelayFacts.

(** ** The theorems on the simulated deployment *)

Lemma relay_complete_witness :
  frames (@generate_stream Sim.world (PStr (lit "gpt-4o")) [(lit "user", lit "hi")] 0)
    = map (@data_frame Sim.world)
        (concat [ [Sim.content_chunk 0; Sim.content_chunk 1]; []; [Sim.content_chunk 2] ])
      ++ [@done_frame Sim.world] /\
  stopped (@generate_stream Sim.world (PStr (lit "gpt-4o")) [(lit "user", lit "hi")] 0)
    = Closed /\
  length [ [Sim.content_chunk 0; Sim.content_chunk 1]; []; [Sim.content_chunk 2] ]
    = length [Sim.Delta 2; Sim.Delta 0; Sim.Delta 1] /\
  count DataFrame
    (frames (@generate_stream Sim.world (PStr (lit "gpt-4o")) [(lit "user", lit "hi")] 0))
    = 2 + 0 + 1 /\
  count DoneFrame
    (frames (@generate_stream Sim.world (PStr (lit "gpt-4o")) [(lit "user", lit "hi")] 0))
    = 1 /\
  count ErrorFrame
    (frames (@generate_stream Sim.world (PStr (lit "gpt-4o")) [(lit "user", lit "hi")] 0))
    = 0 /\
  length
    (frames (@generate_stream Sim.world (PStr (lit "gpt-4o")) [(lit "user", lit "hi")] 0))
    = 4.
Proof.
  apply (@relay_complete Sim.world (PStr (lit "gpt-4o")) [(lit "user", lit "hi")] 0 3
           [Sim.Delta 2; Sim.Delta 0; Sim.Delta 1]
           [ [Sim.content_chunk 0; Sim.content_chunk 1]; []; [Sim.content_chunk 2] ]).
  - reflexivity.
  - apply (@converts_cons Sim.world 0 2 3); [reflexivity|].
    apply (@converts_cons Sim.world 2 2 3); [reflexivity|].
    apply (@converts_cons Sim.world 2 3 3); [reflexivity|].
    apply (@converts_nil Sim.world 3).
Defined.

Lemma relay_failure_witness :
  Forall is_data [@data_frame Sim.world (Sim.content_chunk 0)] /\
  frames (@generate_stream Sim.world (PStr (lit "flaky")) [(lit "user", lit "hi")] 0)
    = [@data_frame Sim.world (Sim.content_chunk 0)]
      ++ [@error_frame Sim.world (Sim.on_error 1 (lit "connection reset"))] /\
  stopped (@generate_stream Sim.world (PStr (lit "flaky")) [(lit "user", lit "hi")] 0)
    = Closed /\
  count DataFrame
    (frames (@generate_stream Sim.world (PStr (lit "flaky")) [(lit "user", lit "hi")] 0))
    = 1 /\
  count DoneFrame
    (frames (@generate_stream Sim.world (PStr (lit "flaky")) [(lit "user", lit "hi")] 0))
    = 0 /\
  count ErrorFrame
    (frames (@generate_stream Sim.world (PStr (lit "flaky")) [(lit "user", lit "hi")] 0))
    = 1.
Proof.
  apply (proj1 (@relay_failure Sim.world (PStr (lit "flaky")) [(lit "user", lit "hi")] 0)
           [@data_frame Sim.world (Sim.content_chunk 0)] 1 (lit "connection reset")).
  reflexivity.
Defined.

Lemma pre_stream_failure_witness :
  @chat_endpoint Sim.world {| messages := [Sim.user_says (lit "hi"); {| role := []; content := None; name := None; toolCalls := None; toolCallId := None |}]; data := None |}
    = HTTPException 500 (lit "message without a role") /\
  @app Sim.world
    (Sim.post_chat
       (PDict [ (lit "messages",
                 PList [ PDict [(lit "role", PStr (lit "user")); (lit "content", PStr (lit "hi"))];
                         PDict [(lit "role", PStr [])] ]) ]))
    = JSONResponse 500 (PDict [(lit "detail", PStr (lit "message without a role"))]).
Proof.
  destruct (@pre_stream_failure Sim.world
              {| messages := [Sim.user_says (lit "hi"); {| role := []; content := None; name := None; toolCalls := None; toolCallId := None |}]; data := None |}
              (lit "message without a role")) as [Hend Happ].
  - left. reflexivity.
  - split; [exact Hend|]. apply Happ. reflexivity.
Defined.

(** C7, as the claim states it, fails: the options hold the key ["model"]
    with the empty string as its value, and the model passed upstream is not
    that value. *)
Lemma model_selection_counterexample :
  exists response kw,
    @chat_endpoint Sim.world
      {| messages := [Sim.user_says (lit "hi")];
         data := Some [(lit "model", PStr [])] |} = Returned response /\
    upstream_calls (body response) = [kw] /\
    lookup [(lit "model", PStr [])] (lit "model") = Some (PStr []) /\
    Completions.model kw = PStr (lit "gpt-4o") /\
    Completions.model kw <> PStr [].
Proof.
  eexists. eexists. split; [reflexivity|].
  split; [reflexivity|]. repeat split. discriminate.
Qed.

Lemma model_selection_witness :
  exists response kw,
    @chat_endpoint Sim.world
      {| messages := [Sim.user_says (lit "hi")];
         data := Some [(lit "temperature", PInt 1); (lit "model", PStr (lit "flaky"))] |}
      = Returned response /\
    upstream_calls (body response) = [kw] /\
    Completions.model kw = PStr (lit "flaky").
Proof.
  assert (Hret : exists response,
            @chat_endpoint Sim.world
              {| messages := [Sim.user_says (lit "hi")];
                 data := Some [(lit "temperature", PInt 1); (lit "model", PStr (lit "flaky"))] |}
            = Returned response) by (eexists; reflexivity).
  destruct Hret as [response Hret].
  destruct (@model_selection Sim.world _ _ Hret) as (kw & Hcalls & _ & Htruthy & _).
  exists response, kw. split; [exact Hret | split; [exact Hcalls|]].
  apply (Htruthy [(lit "temperature", PInt 1); (lit "model", PStr (lit "flaky"))]);
    reflexivity.
Defined.

Lemma health_always_ok_witness :
  @app Sim.world {| method := lit "GET"; path := lit "/health"; json := Some (PStr (lit "ignored")) |}
    = JSONResponse 200 health_check /\
  nth_error
    (@serve Sim.world
       ([Sim.post_chat (PDict [(lit "messages", PList [])])]
        ++ {| method := lit "GET"; path := lit "/health"; json := Some (PStr (lit "ignored")) |}
           :: []))
    1
    = Some (JSONResponse 200 health_check).
Proof.
  destruct (@health_always_ok Sim.world
              {| method := lit "GET"; path := lit "/health"; json := Some (PStr (lit "ignored")) |}
              eq_refl eq_refl) as (Happ & _ & Hserve).
  split; [exact Happ|].
  apply (Hserve [Sim.post_chat (PDict [(lit "messages", PList [])])] []).
Defined.

(** C9, as the claim states it, fails: the upstream rejects the call made for
    an empty list of messages, and the stream is the error frame alone, with
    no done frame. *)
Lemma empty_messages_counterexample :
  exists response,
    @app Sim.world (Sim.post_chat (PDict [(lit "messages", PList [])]))
      = EventStream 200 response /\
    stopped (body response) = Closed /\
    frames (body response)
      = [@error_frame Sim.world (Sim.on_error 0 (lit "messages: array too short"))] /\
    count DoneFrame (frames (body response)) = 0.
Proof.
  eexists. split; [reflexivity|]. repeat split.
Qed.

Lemma empty_messages_accepted_witness :
  Validate.chat_request (PDict [(lit "messages", PList [])])
    = Some {| messages := []; data := None |} /\
  @app Sim.world (Sim.post_chat (PDict [(lit "messages", PList [])])) <> Unprocessable.
Proof.
  destruct (@empty_messages_accepted Sim.world [(lit "messages", PList [])] None
              eq_refl eq_refl) as (Hvalid & _ & Hnot & _).
  split; [exact Hvalid | exact Hnot].
Defined.

(** * Further properties *)

(** ** Start-up *)

Lemma str_eqb_eq (a b : str) : str_eqb a b = true <-> a = b.
Proof.
  revert b. induction a as [|x a IH]; intros [|y b]; cbn [str_eqb];
    try (split; [discriminate | discriminate]); [split; reflexivity|].
  rewrite andb_true_iff, N.eqb_eq, IH. split.
  - intros [-> ->]. reflexivity.
  - intros Heq. injection Heq as -> ->. split; reflexivity.
Qed.

Lemma str_eqb_neq (a b : str) : a <> b -> str_eqb a b = false.
Proof.
  intros Hne. destruct (str_eqb a b) eqn:Heq; [|reflexivity].
  apply str_eqb_eq in Heq. contradiction.
Qed.

Lemma sk_is_not_op (key : str) :
  startswith key (lit "sk-") = true -> startswith key (lit "op://") = false.
Proof.
  destruct key as [|c key]; [discriminate|]. cbn [lit startswith].
  intros Hsk. apply andb_true_iff in Hsk. destruct Hsk as [Hc _].
  apply N.eqb_eq in Hc. subst c. reflexivity.
Qed.

Lemma module_body_loaded (env : Startup.environ) (key : str) (stdout : list str) :
  Startup.module_body env = Startup.Loaded key stdout ->
  Startup.getenv env (lit "OPENAI_API_KEY") = Some key /\
  key <> [] /\
  startswith key (lit "op://") = false /\
  stdout = Startup.prefix_warning key ++ Startup.length_warning key ++ Startup.banner key.
Proof.
  unfold Startup.module_body.
  destruct (Startup.getenv env (lit "OPENAI_API_KEY")) as [k|]; [|discriminate].
  destruct k as [|c k]; [discriminate|]. cbn [truthy negb].
  destruct (startswith (c :: k) (lit "op://")) eqn:Hop; [discriminate|].
  intros Hload. injection Hload as <- <-. repeat split; [discriminate | exact Hop].
Qed.

(** The module body runs to its end exactly when the credential variable is
    set, not empty, and does not start with [op://]: the prefix and length
    checks never stop it, and the key handed to the client is the variable's
    value, unchanged. *)
Theorem startup_loads_iff (env : Startup.environ) (key : str) :
  (exists stdout, Startup.module_body env = Startup.Loaded key stdout) <->
  (Startup.getenv env (lit "OPENAI_API_KEY") = Some key /\
   key <> [] /\
   startswith key (lit "op://") = false).
Proof.
  split.
  - intros [stdout Hload]. apply module_body_loaded in Hload. tauto.
  - intros (Henv & Hne & Hop). unfold Startup.module_body. rewrite Henv.
    destruct key as [|c key]; [congruence|]. cbn [truthy negb]. rewrite Hop.
    eexists. reflexivity.
Qed.

(** What start-up prints: the 8 lines of the banner, after two more lines
    when the key does not start with [sk-] and one more when it has fewer
    than 40 characters; for a key that starts with [sk-] and has 40 characters
    or more, the banner alone. *)
Theorem startup_output_lines (env : Startup.environ) (key : str) (stdout : list str) :
  Startup.module_body env = Startup.Loaded key stdout ->
  length stdout
    = (if startswith key (lit "sk-") then 0 else 2)
      + (if length key <? 40 then 1 else 0) + 8 /\
  skipn (length stdout - 8) stdout = Startup.banner key /\
  (startswith key (lit "sk-") = true -> 40 <= length key -> stdout = Startup.banner key).
Proof.
  intros Hload. apply module_body_loaded in Hload. destruct Hload as (_ & _ & _ & ->).
  unfold Startup.prefix_warning, Startup.length_warning.
  destruct (startswith key (lit "sk-")); cbn [negb];
    destruct (Nat.ltb_spec (length key) 40) as [Hshort | Hlong];
    (split; [reflexivity | split; [reflexivity|]]);
    intros Hsk Hlen; try discriminate; try lia; reflexivity.
Qed.

Lemma startup_output_lines_witness :
  length (Startup.prefix_warning (lit "test-key") ++ Startup.length_warning (lit "test-key")
          ++ Startup.banner (lit "test-key")) = 2 + 1 + 8 /\
  skipn (length (Startup.prefix_warning (lit "test-key")
                 ++ Startup.length_warning (lit "test-key")
                 ++ Startup.banner (lit "test-key")) - 8)
    (Startup.prefix_warning (lit "test-key") ++ Startup.length_warning (lit "test-key")
     ++ Startup.banner (lit "test-key"))
    = Startup.banner (lit "test-key").
Proof.
  destruct (@startup_output_lines [(lit "OPENAI_API_KEY", lit "test-key")] (lit "test-key")
              (Startup.prefix_warning (lit "test-key") ++ Startup.length_warning (lit "test-key")
               ++ Startup.banner (lit "test-key")) eq_refl) as (Hlen & Hlast & _).
  split; [exact Hlen | exact Hlast].
Defined.

(** What start-up prints for a key that starts with [sk-] and has more than
    11 characters depends on the key's length, its first 7 and its last 4
    characters only: two such keys that agree on these print the same lines. *)
Theorem startup_output_hides_middle (env1 env2 : Startup.environ) (key1 key2 : str) :
  Startup.getenv env1 (lit "OPENAI_API_KEY") = Some key1 ->
  Startup.getenv env2 (lit "OPENAI_API_KEY") = Some key2 ->
  startswith key1 (lit "sk-") = true ->
  startswith key2 (lit "sk-") = true ->
  11 < length key1 ->
  length key1 = length key2 ->
  slice_to 7 key1 = slice_to 7 key2 ->
  slice_last 4 key1 = slice_last 4 key2 ->
  exists stdout,
    Startup.module_body env1 = Startup.Loaded key1 stdout /\
    Startup.module_body env2 = Startup.Loaded key2 stdout.
Proof.
  intros Henv1 Henv2 Hsk1 Hsk2 Hlong Hlen Hfirst Hlast.
  unfold Startup.module_body. rewrite Henv1, Henv2.
  rewrite (sk_is_not_op _ Hsk1), (sk_is_not_op _ Hsk2).
  destruct key1 as [|c1 k1]; [discriminate|]. destruct key2 as [|c2 k2]; [discriminate|].
  cbn [truthy negb]. eexists. split; [reflexivity|].
  f_equal. unfold Startup.prefix_warning, Startup.length_warning, Startup.banner.
  rewrite Hsk1, Hsk2, <- Hlen.
  rewrite (@mask_api_key_long (c1 :: k1)) by exact Hlong.
  rewrite (@mask_api_key_long (c2 :: k2)) by (rewrite <- Hlen; exact Hlong).
  rewrite Hfirst, Hlast. reflexivity.
Qed.

Lemma startup_output_hides_middle_witness :
  exists stdout,
    Startup.module_body [(lit "OPENAI_API_KEY", lit "sk-proj-AAAAAAAAwxyz")]
      = Startup.Loaded (lit "sk-proj-AAAAAAAAwxyz") stdout /\
    Startup.module_body [(lit "OPENAI_API_KEY", lit "sk-proj-BBBBBBBBwxyz")]
      = Startup.Loaded (lit "sk-proj-BBBBBBBBwxyz") stdout.
Proof.
  apply (@startup_output_hides_middle
           [(lit "OPENAI_API_KEY", lit "sk-proj-AAAAAAAAwxyz")]
           [(lit "OPENAI_API_KEY", lit "sk-proj-BBBBBBBBwxyz")]
           (lit "sk-proj-AAAAAAAAwxyz") (lit "sk-proj-BBBBBBBBwxyz"));
    try reflexivity.
  cbn. lia.
Defined.

(** *** [mask_api_key] *)

Lemma mask_api_key_keeps_ends (key : str) :
  11 < length key ->
  slice_to 7 (Startup.mask_api_key key) = slice_to 7 key /\
  slice_last 4 (Startup.mask_api_key key) = slice_last 4 key.
Proof.
  intros Hlen. pose proof (mask_api_key_long_length key Hlen) as Hm.
  unfold slice_last at 1. rewrite Hm. change (14 - 4) with 10.
  rewrite (mask_api_key_long key Hlen). split.
  - unfold slice_to. apply firstn_app_exact. rewrite length_firstn. lia.
  - rewrite app_assoc. apply skipn_app_exact. unfold slice_to.
    rewrite length_app, length_firstn. cbn [lit length]. lia.
Qed.

(** Masking a masked key changes nothing. *)
Theorem mask_api_key_idempotent (key : str) :
  Startup.mask_api_key (Startup.mask_api_key key) = Startup.mask_api_key key.
Proof.
  destruct (Nat.le_gt_cases (length key) 11) as [Hshort | Hlong].
  - rewrite (mask_api_key_short key Hshort). unfold times.
    rewrite mask_api_key_short by (rewrite repeat_length; exact Hshort).
    unfold times. rewrite repeat_length. reflexivity.
  - pose proof (mask_api_key_long_length key Hlong) as Hm.
    destruct (mask_api_key_keeps_ends key Hlong) as [Hfirst Hlast].
    rewrite (@mask_api_key_long (Startup.mask_api_key key)) by lia.
    rewrite Hfirst, Hlast. symmetry. apply mask_api_key_long. exact Hlong.
Qed.

(** For a key of more than 11 characters the mask shows all of it but a
    middle part of [len(key) - 11] characters, which the three dots stand
    for: one character only of a key of 12. *)
Theorem mask_api_key_hides_middle_only (key : str) :
  11 < length key ->
  exists hidden,
    key = slice_to 7 key ++ hidden ++ slice_last 4 key /\
    Startup.mask_api_key key = slice_to 7 key ++ lit "..." ++ slice_last 4 key /\
    length hidden = length key - 11.
Proof.
  intros Hlen. exists (firstn (length key - 11) (skipn 7 key)).
  split; [|split].
  - unfold slice_to, slice_last.
    replace (length key - 4) with ((length key - 11) + 7) by lia.
    rewrite <- skipn_skipn, firstn_skipn, firstn_skipn. reflexivity.
  - apply mask_api_key_long. exact Hlen.
  - rewrite length_firstn, length_skipn. lia.
Qed.

Lemma mask_api_key_hides_middle_only_witness :
  exists hidden,
    lit "sk-abcdefghi" = slice_to 7 (lit "sk-abcdefghi") ++ hidden
                         ++ slice_last 4 (lit "sk-abcdefghi") /\
    Startup.mask_api_key (lit "sk-abcdefghi")
      = slice_to 7 (lit "sk-abcdefghi") ++ lit "..." ++ slice_last 4 (lit "sk-abcdefghi") /\
    length hidden = length (lit "sk-abcdefghi") - 11.
Proof.
  apply (@mask_api_key_hides_middle_only (lit "sk-abcdefghi")). cbn. lia.
Defined.

(** ** The stream relay *)

Section RelayMore.

Context {world : Collaborators}.

(** The loop over a stream that begins with events the converter answers:
    their data frames, in order, then whatever the loop does on the rest of
    the stream, with the converter as those events left it. *)
Theorem relay_events_after_prefix (conv conv1 : converter) (evs : list event)
  (chunks : list (list chunk)) (s : upstream event exn signal) :
  converts conv evs chunks conv1 ->
  relay_events conv (fold_right Next s evs)
    = (map data_frame (concat chunks) ++ fst (fst (relay_events conv1 s)),
       snd (fst (relay_events conv1 s)),
       snd (relay_events conv1 s)).
Proof.
  induction 1 as [conv | conv conv0 conv1 ev evs cs rest Hev _ IH].
  - cbn [fold_right concat map app]. now destruct (relay_events conv s) as [[fs c] stop].
  - cbn [fold_right relay_events]. rewrite Hev, IH.
    cbn [concat fst snd]. rewrite map_app, app_assoc. reflexivity.
Qed.

(** When the upstream call itself raises an exception, the stream is one
    frame: the error chunk, made by the converter as it was constructed. *)
Theorem upstream_refusal_stream (model : value) (openai_messages : provider_messages)
  (conv : converter) (e : exn) :
  create (create_kwargs model openai_messages) = inl (Exc e) ->
  frames (generate_stream model openai_messages conv)
    = [error_frame (convert_error conv e)] /\
  stopped (generate_stream model openai_messages conv) = Closed.
Proof.
  intros Hopen. unfold generate_stream.
  rewrite (stream_try_open_fails _ _ conv Hopen). split; reflexivity.
Qed.

(** When the iteration raises an exception after events the converter
    answered, the stream is the data frames of those events and then the error
    chunk, made by the converter as the last of them left it. *)
Theorem iteration_failure_stream (model : value) (openai_messages : provider_messages)
  (conv conv1 : converter) (evs : list event) (chunks : list (list chunk)) (e : exn) :
  create (create_kwargs model openai_messages)
    = inr (fold_right Next (Fails (Exc e)) evs) ->
  converts conv evs chunks conv1 ->
  frames (generate_stream model openai_messages conv)
    = map data_frame (concat chunks) ++ [error_frame (convert_error conv1 e)] /\
  stopped (generate_stream model openai_messages conv) = Closed.
Proof.
  intros Hopen Hconv. unfold generate_stream, stream_try.
  rewrite Hopen, (relay_events_iteration_fails (Exc e) Hconv). split; reflexivity.
Qed.

(** When the converter raises an exception on an event, no frame of that
    event is sent and the events after it are not converted: the stream is the
    data frames of the events before it and then the error chunk, made by the
    converter as the failed call left it. *)
Theorem conversion_failure_stream (model : value) (openai_messages : provider_messages)
  (conv conv1 conv' : converter) (evs : list event) (chunks : list (list chunk))
  (ev : event) (rest : upstream event exn signal) (e : exn) :
  create (create_kwargs model openai_messages)
    = inr (fold_right Next (Next ev rest) evs) ->
  converts conv evs chunks conv1 ->
  convert_event conv1 ev = (conv', inl (Exc e)) ->
  frames (generate_stream model openai_messages conv)
    = map data_frame (concat chunks) ++ [error_frame (convert_error conv' e)] /\
  stopped (generate_stream model openai_messages conv) = Closed.
Proof.
  intros Hopen Hconv Hbad. unfold generate_stream, stream_try.
  rewrite Hopen, (relay_events_conversion_fails ev rest Hconv Hbad). split; reflexivity.
Qed.

(** What is raised without being an [Exception] is not caught at line 151:
    the generator has yielded the data frames sent so far, no error frame and
    no done frame, and the signal leaves it. *)
Theorem signal_leaves_generator (model : value) (openai_messages : provider_messages)
  (conv conv' : converter) (fs : list frame) (b : signal) :
  stream_try model openai_messages conv = (fs, conv', Some (Signal b)) ->
  frames (generate_stream model openai_messages conv) = fs /\
  stopped (generate_stream model openai_messages conv) = Propagated b /\
  count DataFrame fs = length fs /\
  count DoneFrame fs = 0 /\
  count ErrorFrame fs = 0.
Proof.
  intros Htry. pose proof (stream_try_cases _ _ _ Htry) as Hdata. cbn in Hdata.
  unfold generate_stream. rewrite Htry. cbn [frames stopped].
  split; [reflexivity | split; [reflexivity|]]. now apply count_of_data.
Qed.

(** The counting loop is the loop. *)
Lemma relay_counting_relay_events (s : upstream event exn signal) :
  forall n conv, fst (relay_counting n conv s) = relay_events conv s.
Proof.
  induction s as [| ev rest IH | r]; intros n conv; cbn [relay_counting relay_events];
    try reflexivity.
  destruct (convert_event conv ev) as [conv1 [r | chunks]]; [reflexivity|].
  rewrite <- IH with (n := {| event_count := event_count n + 1;
                               chunk_count := chunk_count n + length chunks |}).
  cbn [event_count chunk_count].
  now destruct (relay_counting _ conv1 rest) as [[[fs c] stop] n3].
Qed.

(** At the end of the loop, however it ended, [chunk_count] has grown by the
    number of frames yielded, and [event_count] by at most the number of
    events the stream had to give. *)
Theorem chunk_count_is_frames_yielded (s : upstream event exn signal) :
  forall n conv fs conv' stop n',
    relay_counting n conv s = (fs, conv', stop, n') ->
    relay_events conv s = (fs, conv', stop) /\
    chunk_count n' = chunk_count n + length fs /\
    chunk_count n' = chunk_count n + count DataFrame fs /\
    event_count n <= event_count n'.
Proof.
  intros n conv fs conv' stop n' Hrun.
  assert (Hloop : relay_events conv s = (fs, conv', stop)).
  { rewrite <- (relay_counting_relay_events s n conv), Hrun. reflexivity. }
  split; [exact Hloop|].
  destruct (count_of_data (relay_events_yields_data _ _ Hloop)) as (-> & _ & _).
  cut (chunk_count n' = chunk_count n + length fs /\ event_count n <= event_count n');
    [tauto|].
  clear Hloop. revert n conv fs conv' stop n' Hrun.
  induction s as [| ev rest IH | r]; intros n conv fs conv' stop n';
    cbn [relay_counting].
  - intros Hrun. injection Hrun as <- _ _ <-. cbn. lia.
  - destruct (convert_event conv ev) as [conv1 [r | chunks]].
    + intros Hrun. injection Hrun as <- _ _ <-. cbn. lia.
    + destruct (relay_counting _ conv1 rest) as [[[fs1 c] stop1] n3] eqn:Hrest.
      intros Hrun. injection Hrun as <- _ _ <-.
      apply IH in Hrest. cbn [event_count chunk_count] in Hrest.
      rewrite length_app, length_map. lia.
  - intros Hrun. injection Hrun as <- _ _ <-. cbn. lia.
Qed.

(** When the stream ends after [N] events that the converter answered with
    [k_i] chunks each, line 145 logs [N] events and the sum of the [k_i]
    chunks. *)
Theorem stream_complete_counts (conv conv' : converter) (evs : list event)
  (chunks : list (list chunk)) :
  converts conv evs chunks conv' ->
  exists n,
    relay_counting {| event_count := 0; chunk_count := 0 |} conv (stream_of evs)
      = (map data_frame (concat chunks), conv', None, n) /\
    event_count n = length evs /\
    chunk_count n = list_sum (map (@length chunk) chunks) /\
    stream_complete_message n
      = [9989%N] ++ lit " Stream complete - " ++ str_of_nat (length evs)
        ++ lit " events, " ++ str_of_nat (list_sum (map (@length chunk) chunks))
        ++ lit " chunks sent".
Proof.
  intros Hconv.
  assert (Hgen : forall n0, exists n,
             relay_counting n0 conv (stream_of evs)
               = (map data_frame (concat chunks), conv', None, n) /\
             event_count n = event_count n0 + length evs /\
             chunk_count n = chunk_count n0 + list_sum (map (@length chunk) chunks)).
  { induction Hconv as [conv | conv conv0 conv1 ev evs cs rest Hev _ IH]; intros n0.
    - exists n0. cbn. repeat split; lia.
    - cbn [stream_of fold_right relay_counting]. rewrite Hev.
      destruct (IH {| event_count := event_count n0 + 1;
                      chunk_count := chunk_count n0 + length cs |})
        as (n & Hrun & Hev_n & Hch_n).
      unfold stream_of in Hrun. cbn [event_count chunk_count]. rewrite Hrun.
      exists n. cbn [event_count chunk_count concat map list_sum length] in *.
      rewrite map_app. repeat split; [lia | simpl list_sum; lia]. }
  destruct (Hgen {| event_count := 0; chunk_count := 0 |}) as (n & Hrun & Hev_n & Hch_n).
  exists n. cbn [event_count chunk_count] in *.
  unfold stream_complete_message. rewrite Hev_n, Hch_n. cbn [Nat.add].
  repeat split. exact Hrun.
Qed.

End RelayMore.

(** ** Request validation *)

Lemma each_map (A B : Type) (f : A -> option B) (l : list A) (ys : list B) :
  Validate.each f l = Some ys -> map f l = map Some ys.
Proof.
  revert ys. induction l as [|x l IH]; cbn [Validate.each map]; intros ys Heach.
  - injection Heach as <-. reflexivity.
  - destruct (f x) as [y|]; [|discriminate].
    destruct (Validate.each f l) as [ys'|]; [|discriminate].
    injection Heach as <-. cbn [map]. now rewrite (IH ys').
Qed.

Lemma each_rejects (A B : Type) (f : A -> option B) (l : list A) (x : A) :
  In x l -> f x = None -> Validate.each f l = None.
Proof.
  intros Hin Hx. induction l as [|a l IH]; [contradiction|].
  cbn [Validate.each]. destruct Hin as [-> | Hin].
  - rewrite Hx. reflexivity.
  - rewrite (IH Hin). now destruct (f a).
Qed.

(** The messages of a request are the entries of the body's [messages]
    array, each deserialized on its own, in the array's order: none is
    dropped, added or moved. *)
Theorem validation_keeps_order (payload : value) (request : ChatRequest) :
  Validate.chat_request payload = Some request ->
  exists d l,
    payload = PDict d /\
    lookup d (lit "messages") = Some (PList l) /\
    map Validate.message l = map Some request.(messages) /\
    length request.(messages) = length l.
Proof.
  destruct payload as [ | | | | | | d]; try discriminate.
  unfold Validate.chat_request, Validate.required.
  destruct (lookup d (lit "messages")) as [[ | | | | | l | ]|] eqn:Hkey; try discriminate.
  cbn [Validate.as_list].
  destruct (Validate.each Validate.message l) as [ms|] eqn:Heach; [|discriminate].
  destruct (Validate.optional Validate.as_dict d (lit "data")) as [dt|]; [|discriminate].
  intros Hreq. injection Hreq as <-. cbn [messages].
  apply each_map in Heach. exists d, l. repeat split; try assumption.
  apply (f_equal (@length _)) in Heach. rewrite !length_map in Heach. now symmetry.
Qed.

Lemma validation_keeps_order_witness :
  exists d l,
    PDict [ (lit "data", PNone);
            (lit "messages",
             PList [ PDict [(lit "role", PStr (lit "system")); (lit "content", PNone)];
                     PDict [(lit "role", PStr (lit "user")); (lit "content", PStr (lit "hi"))] ]) ]
      = PDict d /\
    lookup d (lit "messages") = Some (PList l) /\
    map Validate.message l
      = map Some [ {| role := lit "system"; content := None; name := None;
                      toolCalls := None; toolCallId := None |};
                   Sim.user_says (lit "hi") ] /\
    length [ {| role := lit "system"; content := None; name := None;
                toolCalls := None; toolCallId := None |};
             Sim.user_says (lit "hi") ] = length l.
Proof.
  apply (@validation_keeps_order
           (PDict [ (lit "data", PNone);
                    (lit "messages",
                     PList [ PDict [(lit "role", PStr (lit "system")); (lit "content", PNone)];
                             PDict [(lit "role", PStr (lit "user"));
                                    (lit "content", PStr (lit "hi"))] ]) ])
           {| messages := [ {| role := lit "system"; content := None; name := None;
                               toolCalls := None; toolCallId := None |};
                            Sim.user_says (lit "hi") ];
              data := None |}).
  reflexivity.
Defined.

(** A key that the models do not declare changes nothing: a body, or a
    message, with one more such key deserializes as it does without it. *)
Theorem undeclared_keys_ignored (k : str) (v : value) (d : dict) :
  (k <> lit "messages" -> k <> lit "data" ->
   Validate.chat_request (PDict ((k, v) :: d)) = Validate.chat_request (PDict d)) /\
  (k <> lit "role" -> k <> lit "content" -> k <> lit "name" ->
   k <> lit "toolCalls" -> k <> lit "toolCallId" ->
   Validate.message (PDict ((k, v) :: d)) = Validate.message (PDict d)).
Proof.
  split.
  - intros H1 H2.
    unfold Validate.chat_request, Validate.required, Validate.optional.
    cbn [lookup]. now rewrite !str_eqb_neq by assumption.
  - intros H1 H2 H3 H4 H5.
    unfold Validate.message, Validate.required, Validate.optional.
    cbn [lookup]. now rewrite !str_eqb_neq by assumption.
Qed.

Lemma undeclared_keys_ignored_witness :
  Validate.chat_request
    (PDict [(lit "stream", PBool true); (lit "messages", PList [])])
    = Validate.chat_request (PDict [(lit "messages", PList [])]) /\
  Validate.message (PDict [(lit "id", PInt 7); (lit "role", PStr (lit "user"))])
    = Validate.message (PDict [(lit "role", PStr (lit "user"))]).
Proof.
  split.
  - apply (proj1 (undeclared_keys_ignored (lit "stream") (PBool true)
                    [(lit "messages", PList [])])); discriminate.
  - apply (proj2 (undeclared_keys_ignored (lit "id") (PInt 7)
                    [(lit "role", PStr (lit "user"))])); discriminate.
Defined.

(** ** The endpoint *)

Section EndpointMore.

Context {world : Collaborators}.

(** A body with no [messages] key, or with one message that has no [role]
    key, is answered as unprocessable: the endpoint function is not called
    for the messages that are well formed. *)
Theorem body_rejected_whole (d : dict) :
  (lookup d (lit "messages") = None ->
   app {| method := lit "POST"; path := lit "/chat"; json := Some (PDict d) |}
     = Unprocessable) /\
  (forall l dm,
     lookup d (lit "messages") = Some (PList l) ->
     In (PDict dm) l ->
     lookup dm (lit "role") = None ->
     app {| method := lit "POST"; path := lit "/chat"; json := Some (PDict d) |}
       = Unprocessable).
Proof.
  split.
  - intros Hkey. rewrite app_post_chat.
    unfold Validate.chat_request, Validate.required. now rewrite Hkey.
  - intros l dm Hkey Hin Hrole. rewrite app_post_chat.
    unfold Validate.chat_request, Validate.required. rewrite Hkey.
    cbn [Validate.as_list].
    rewrite (@each_rejects _ _ Validate.message l (PDict dm) Hin); [reflexivity|].
    unfold Validate.message, Validate.required. now rewrite Hrole.
Qed.

Lemma select_model_get (d : dict) :
  select_model (Some d)
  = if truthy (get d (lit "model")) then get d (lit "model") else PStr (lit "gpt-4o").
Proof.
  unfold select_model. destruct d as [|p d]; reflexivity.
Qed.

(** The model passed on is never a falsy value. *)
Lemma select_model_is_truthy (options : option dict) :
  truthy (select_model options) = true.
Proof.
  destruct options as [d|]; [|reflexivity]. rewrite select_model_get.
  destruct (truthy (get d (lit "model"))) eqn:Hv; [exact Hv | reflexivity].
Qed.

(** Of the options of a request the endpoint reads the ["model"] entry and
    nothing else: two requests with the same messages whose options give the
    same answer to [get("model")], or one of which has no options and the
    other no model, are answered alike. *)
Theorem only_model_option_is_read (ms : list Message) (options1 options2 : option dict) :
  match options1 with Some d => get d (lit "model") | None => PNone end
  = match options2 with Some d => get d (lit "model") | None => PNone end ->
  chat_endpoint {| messages := ms; data := options1 |}
  = chat_endpoint {| messages := ms; data := options2 |}.
Proof.
  intros Hsame.
  assert (Hmodel : select_model options1 = select_model options2).
  { destruct options1 as [d1|], options2 as [d2|]; rewrite ?select_model_get.
    - now rewrite Hsame.
    - now rewrite Hsame.
    - now rewrite <- Hsame.
    - reflexivity. }
  unfold chat_endpoint. cbn [messages data]. rewrite Hmodel. reflexivity.
Qed.

(** The one call a returned stream makes upstream: the adapter's output for
    the request's messages, a model that is truthy, 1024 tokens at most,
    temperature 0.7 and streaming on, whatever the request's options say. *)
Theorem upstream_call_shape (request : ChatRequest) (response : StreamingResponse) :
  chat_endpoint request = Returned response ->
  exists openai_messages,
    format_messages_for_openai request.(messages) = inr openai_messages /\
    upstream_calls (body response)
      = [ {| Completions.model := select_model request.(data);
             Completions.messages := openai_messages;
             Completions.max_tokens := 1024;
             Completions.temperature := 0x1.6666666666666p-1%float;
             Completions.stream := true |} ] /\
    truthy (select_model request.(data)) = true.
Proof.
  unfold chat_endpoint.
  destruct (format_messages_for_openai request.(messages)) as [[e | b] | om];
    try discriminate.
  destruct (StreamChunkConverter (select_model request.(data)) (lit "openai"))
    as [[e | b] | conv]; try discriminate.
  intros Hret. injection Hret as <-. cbn [body].
  exists om. split; [reflexivity | split; [|apply select_model_is_truthy]].
  unfold generate_stream.
  destruct (stream_try _ om conv) as [[fs conv'] [[e | b]|]]; reflexivity.
Qed.




(** What the adapter or the converter's constructor raises without its being
    an [Exception] is not answered with status 500: it leaves the endpoint. *)
Theorem signal_leaves_endpoint (request : ChatRequest) (b : signal) :
  format_messages_for_openai request.(messages) = inl (Signal b) \/
  (exists openai_messages,
     format_messages_for_openai request.(messages) = inr openai_messages /\
     StreamChunkConverter (select_model request.(data)) (lit "openai") = inl (Signal b)) ->
  chat_endpoint request = Escaped b /\
  forall payload,
    Validate.chat_request payload = Some request ->
    app {| method := lit "POST"; path := lit "/chat"; json := Some payload |}
      = Aborted b.
Proof.
  intros Hraise.
  assert (Hend : chat_endpoint request = Escaped b).
  { unfold chat_endpoint. destruct Hraise as [-> | (om & -> & ->)]; reflexivity. }
  split; [exact Hend|].
  intros payload Hvalid. rewrite app_post_chat, Hvalid, Hend. reflexivity.
Qed.

End EndpointMore.

(** ** The further theorems on the two deployments *)

Lemma relay_events_after_prefix_witness :
  @relay_events Sim.world 0
    (fold_right Next (Next Sim.Malformed Exhausted) [Sim.Delta 1; Sim.Delta 2])
  = (map (@data_frame Sim.world)
       (concat [ [Sim.content_chunk 0]; [Sim.content_chunk 1; Sim.content_chunk 2] ])
     ++ fst (fst (@relay_events Sim.world 3 (Next Sim.Malformed Exhausted))),
     snd (fst (@relay_events Sim.world 3 (Next Sim.Malformed Exhausted))),
     snd (@relay_events Sim.world 3 (Next Sim.Malformed Exhausted))).
Proof.
  apply (@relay_events_after_prefix Sim.world 0 3 [Sim.Delta 1; Sim.Delta 2]
           [ [Sim.content_chunk 0]; [Sim.content_chunk 1; Sim.content_chunk 2] ]).
  apply (@converts_cons Sim.world 0 1 3); [reflexivity|].
  apply (@converts_cons Sim.world 1 3 3); [reflexivity|].
  apply (@converts_nil Sim.world 3).
Defined.

Lemma upstream_refusal_stream_witness :
  frames (@generate_stream Faulty.world (PStr (lit "gpt-4o")) [(lit "user", lit "hi")] 0)
    = [@error_frame Faulty.world (Sim.on_error 0 (lit "service unavailable"))] /\
  stopped (@generate_stream Faulty.world (PStr (lit "gpt-4o")) [(lit "user", lit "hi")] 0)
    = Closed.
Proof.
  apply (@upstream_refusal_stream Faulty.world). reflexivity.
Defined.

Lemma iteration_failure_stream_witness :
  frames (@generate_stream Faulty.world (PStr (lit "dropped")) [(lit "user", lit "hi")] 0)
    = map (@data_frame Faulty.world)
        (concat [ [Sim.content_chunk 0]; [Sim.content_chunk 1; Sim.content_chunk 2] ])
      ++ [@error_frame Faulty.world (Sim.on_error 3 (lit "connection reset"))] /\
  stopped (@generate_stream Faulty.world (PStr (lit "dropped")) [(lit "user", lit "hi")] 0)
    = Closed.
Proof.
  apply (@iteration_failure_stream Faulty.world (PStr (lit "dropped"))
           [(lit "user", lit "hi")] 0 3 [Sim.Delta 1; Sim.Delta 2]
           [ [Sim.content_chunk 0]; [Sim.content_chunk 1; Sim.content_chunk 2] ]
           (lit "connection reset")).
  - reflexivity.
  - apply (@converts_cons Faulty.world 0 1 3); [reflexivity|].
    apply (@converts_cons Faulty.world 1 3 3); [reflexivity|].
    apply (@converts_nil Faulty.world 3).
Defined.

Lemma conversion_failure_stream_witness :
  frames (@generate_stream Faulty.world (PStr (lit "garbled")) [(lit "user", lit "hi")] 0)
    = map (@data_frame Faulty.world)
        (concat [ [Sim.content_chunk 0; Sim.content_chunk 1] ])
      ++ [@error_frame Faulty.world (Sim.on_error 2 (lit "malformed event"))] /\
  stopped (@generate_stream Faulty.world (PStr (lit "garbled")) [(lit "user", lit "hi")] 0)
    = Closed.
Proof.
  apply (@conversion_failure_stream Faulty.world (PStr (lit "garbled"))
           [(lit "user", lit "hi")] 0 2 2 [Sim.Delta 2]
           [ [Sim.content_chunk 0; Sim.content_chunk 1] ]
           Sim.Malformed (Next (Sim.Delta 5) Exhausted) (lit "malformed event")).
  - reflexivity.
  - apply (@converts_cons Faulty.world 0 2 2); [reflexivity|].
    apply (@converts_nil Faulty.world 2).
  - reflexivity.
Defined.

Lemma signal_leaves_generator_witness :
  frames (@generate_stream Faulty.world (PStr (lit "cancelled")) [(lit "user", lit "hi")] 0)
    = [@data_frame Faulty.world (Sim.content_chunk 0)] /\
  stopped (@generate_stream Faulty.world (PStr (lit "cancelled")) [(lit "user", lit "hi")] 0)
    = @Propagated Faulty.world tt /\
  count DataFrame [@data_frame Faulty.world (Sim.content_chunk 0)] = 1 /\
  count DoneFrame [@data_frame Faulty.world (Sim.content_chunk 0)] = 0 /\
  count ErrorFrame [@data_frame Faulty.world (Sim.content_chunk 0)] = 0.
Proof.
  apply (@signal_leaves_generator Faulty.world (PStr (lit "cancelled"))
           [(lit "user", lit "hi")] 0 1
           [@data_frame Faulty.world (Sim.content_chunk 0)] tt).
  reflexivity.
Defined.

Lemma chunk_count_is_frames_yielded_witness :
  @relay_events Faulty.world 0
    (Next (Sim.Delta 2) (Next Sim.Malformed (Next (Sim.Delta 5) Exhausted)))
  = (map (@data_frame Faulty.world) [Sim.content_chunk 0; Sim.content_chunk 1], 2,
     Some (Exc (lit "malformed event"))) /\
  chunk_count {| event_count := 2; chunk_count := 2 |} = 0 + 2 /\
  chunk_count {| event_count := 2; chunk_count := 2 |}
    = 0 + count DataFrame
            (map (@data_frame Faulty.world) [Sim.content_chunk 0; Sim.content_chunk 1]) /\
  0 <= event_count {| event_count := 2; chunk_count := 2 |}.
Proof.
  apply (@chunk_count_is_frames_yielded Faulty.world
           (Next (Sim.Delta 2) (Next Sim.Malformed (Next (Sim.Delta 5) Exhausted)))
           {| event_count := 0; chunk_count := 0 |} 0
           (map (@data_frame Faulty.world) [Sim.content_chunk 0; Sim.content_chunk 1])
           2 (Some (Exc (lit "malformed event")))
           {| event_count := 2; chunk_count := 2 |}).
  reflexivity.
Defined.

Lemma stream_complete_counts_witness :
  exists n,
    @relay_counting Sim.world {| event_count := 0; chunk_count := 0 |} 0
      (@stream_of Sim.world [Sim.Delta 2; Sim.Delta 0; Sim.Delta 1])
    = (map (@data_frame Sim.world)
         (concat [ [Sim.content_chunk 0; Sim.content_chunk 1]; []; [Sim.content_chunk 2] ]),
       3, None, n) /\
    event_count n = 3 /\
    chunk_count n = 3 /\
    stream_complete_message n
      = [9989%N] ++ lit " Stream complete - 3 events, 3 chunks sent".
Proof.
  apply (@stream_complete_counts Sim.world 0 3
           [Sim.Delta 2; Sim.Delta 0; Sim.Delta 1]
           [ [Sim.content_chunk 0; Sim.content_chunk 1]; []; [Sim.content_chunk 2] ]).
  apply (@converts_cons Sim.world 0 2 3); [reflexivity|].
  apply (@converts_cons Sim.world 2 2 3); [reflexivity|].
  apply (@converts_cons Sim.world 2 3 3); [reflexivity|].
  apply (@converts_nil Sim.world 3).
Defined.

Lemma body_rejected_whole_witness :
  @app Sim.world (Sim.post_chat (PDict [(lit "data", PDict [])])) = Unprocessable /\
  @app Sim.world
    (Sim.post_chat
       (PDict [ (lit "messages",
                 PList [ PDict [(lit "role", PStr (lit "user"))];
                         PDict [(lit "content", PStr (lit "hi"))] ]) ]))
    = Unprocessable.
Proof.
  split.
  - apply (proj1 (@body_rejected_whole Sim.world [(lit "data", PDict [])])).
    reflexivity.
  - apply (proj2 (@body_rejected_whole Sim.world
                    [ (lit "messages",
                       PList [ PDict [(lit "role", PStr (lit "user"))];
                               PDict [(lit "content", PStr (lit "hi"))] ]) ])
             [ PDict [(lit "role", PStr (lit "user"))];
               PDict [(lit "content", PStr (lit "hi"))] ]
             [(lit "content", PStr (lit "hi"))]).
    + reflexivity.
    + right. left. reflexivity.
    + reflexivity.
Defined.

Lemma only_model_option_is_read_witness :
  @chat_endpoint Sim.world
    {| messages := [Sim.user_says (lit "hi")];
       data := Some [(lit "temperature", PInt 2); (lit "max_tokens", PInt 5)] |}
  = @chat_endpoint Sim.world
      {| messages := [Sim.user_says (lit "hi")]; data := None |}.
Proof.
  apply (@only_model_option_is_read Sim.world [Sim.user_says (lit "hi")]
           (Some [(lit "temperature", PInt 2); (lit "max_tokens", PInt 5)]) None).
  reflexivity.
Defined.

Lemma upstream_call_shape_witness :
  exists response openai_messages,
    @chat_endpoint Sim.world
      {| messages := [Sim.user_says (lit "hi")];
         data := Some [(lit "max_tokens", PInt 5)] |} = Returned response /\
    Sim.adapt [Sim.user_says (lit "hi")] = inr openai_messages /\
    upstream_calls (body response)
      = [ {| Completions.model := PStr (lit "gpt-4o");
             Completions.messages := openai_messages;
             Completions.max_tokens := 1024;
             Completions.temperature := 0x1.6666666666666p-1%float;
             Completions.stream := true |} ].
Proof.
  assert (Hret : exists response,
            @chat_endpoint Sim.world
              {| messages := [Sim.user_says (lit "hi")];
                 data := Some [(lit "max_tokens", PInt 5)] |} = Returned response)
    by (eexists; reflexivity).
  destruct Hret as [response Hret].
  destruct (@upstream_call_shape Sim.world _ _ Hret) as (om & Hadapt & Hcalls & _).
  exists response, om. split; [exact Hret | split; [exact Hadapt | exact Hcalls]].
Defined.



Lemma signal_leaves_endpoint_witness :
  @chat_endpoint Faulty.world
    {| messages := [ {| role := lit "stop"; content := None; name := None;
                        toolCalls := None; toolCallId := None |} ];
       data := None |} = @Escaped Faulty.world tt /\
  @app Faulty.world
    (Sim.post_chat (PDict [(lit "messages", PList [PDict [(lit "role", PStr (lit "stop"))]])]))
    = @Aborted Faulty.world tt.
Proof.
  destruct (@signal_leaves_endpoint Faulty.world
              {| messages := [ {| role := lit "stop"; content := None; name := None;
                                  toolCalls := None; toolCallId := None |} ];
                 data := None |} tt) as [Hend Happ].
  - left. reflexivity.
  - split; [exact Hend|]. apply Happ. reflexivity.
Defined.
